(** * Input-state interpreters of [ksurct.common.peripherals.xbox]

    A shallow embedding of the state classes of [xbox.py] (everything above
    [Controller]) and the properties its specification states about them.

    Conventions of the embedding.
    - A Python object is a record of its instance attributes; a method is a
      computation in the state-and-exception monad [M Self A] over that
      record, so that what a method mutates is visible in its result.
    - Python [int] is [Z]; [&] is [Z.land]; [bool] is [bool], and [^], [|] on
      two [bool]s are [xorb], [orb].
    - Python [float] is the kernel's binary64 [float]; [int / int] is
      [truediv] below.
    - Python [str] is [string]; the [set] of [DPadSwitchesState] is a
      [gset string], and [tuple(set)] is [elements], a list in an order the
      model does not fix.
    - Name mangling is kept: [self.__value] inside a class body is an
      attribute private to that class, so a subclass that also writes
      [self.__value] gets a second, separate attribute. *)

From Stdlib Require Import ZArith Bool List String Ascii Lia Floats Uint63.
From Stdlib Require Import QArith Qabs Lqa.
From stdpp Require Import base gmap sets strings.
Import ListNotations.

Set Warnings "-inexact-float".
Local Open Scope Z_scope.

(* ===================================================================== *)
(** ** Python values and effects *)
(* ===================================================================== *)

(** The only exception a state class can raise on well-typed events. *)
Inductive exn : Type :=
  | ZeroDivisionError.

Inductive result (A : Type) : Type :=
  | Ok (a : A)
  | Raise (e : exn).
Arguments Ok {A} a.
Arguments Raise {A} e.

(** A method body: it runs on the instance [self : S], may mutate it, and
    either returns or raises.  Mutations made before a [raise] persist. *)
Definition M (S A : Type) : Type := S -> result A * S.

Definition ret {S A : Type} (a : A) : M S A :=
  fun self => (Ok a, self).

Definition bind {S A B : Type} (c : M S A) (k : A -> M S B) : M S B :=
  fun self =>
    match c self with
    | (Ok a, self') => k a self'
    | (Raise e, self') => (Raise e, self')
    end.

(** [self.attr] *)
Definition getattr {S A : Type} (attr : S -> A) : M S A :=
  fun self => (Ok (attr self), self).

(** [self.attr = v], with [upd] the record update. *)
Definition setattr {S A : Type} (upd : A -> S -> S) (v : A) : M S unit :=
  fun self => (Ok tt, upd v self).

(** The outcome of a pure operation that may raise. *)
Definition lift {S A : Type} (r : result A) : M S A :=
  fun self => (r, self).

(** [super().method(...)]: the inherited method runs on the inherited
    attributes [proj self] of the same object. *)
Definition super {S B A : Type} (proj : S -> B) (upd : B -> S -> S)
    (c : M B A) : M S A :=
  fun self => let (r, b) := c (proj self) in (r, upd b self).

Declare Scope py_scope.
Delimit Scope py_scope with py.
Notation "x <- c1 ;; c2" := (bind c1 (fun x => c2))
  (at level 100, c1 at next level, right associativity) : py_scope.
Notation "c1 ;; c2" := (bind c1 (fun _ => c2))
  (at level 100, right associativity) : py_scope.
Local Open Scope py_scope.

(** What running a method returns, and the object it leaves. *)
Definition returned {S A : Type} (c : M S A) (self : S) : result A := fst (c self).
Definition after {S A : Type} (c : M S A) (self : S) : S := snd (c self).

(** A Python number as [DecimalAxisState.value] returns it: the literal [0]
    is an [int], a quotient is a [float]. *)
Inductive pynum : Type :=
  | PyInt (n : Z)
  | PyFloat (x : float).

(** [float(n)] for an [int] that fits 63 bits (exact up to 2^53). *)
Definition float_of_int (n : Z) : float :=
  match n with
  | Z0 => 0%float
  | Zpos _ => of_uint63 (Uint63.of_Z n)
  | Zneg p => (- of_uint63 (Uint63.of_Z (Zpos p)))%float
  end.

(** [a / b] on two [int]s: [ZeroDivisionError] on a zero divisor, else the
    correctly rounded quotient.  For operands a double holds exactly (every
    axis sample and every difference of two is far below 2^53) CPython
    divides the two conversions, which is what the model does.  Beyond
    2^53 Python still rounds the exact quotient once, and it raises
    [OverflowError] when the quotient is too large for a double; the model
    has neither, so what is stated of the value of a quotient, or of the
    absence of an exception, is stated for samples of the hardware
    range. *)
Definition truediv (a b : Z) : result float :=
  if b =? 0 then Raise ZeroDivisionError
  else Ok (float_of_int a / float_of_int b)%float.

(** [math.isclose(a, b, rel_tol=rel_tol, abs_tol=abs_tol)] on doubles, as
    CPython computes it (both tolerances here are non-negative constants, so
    its [ValueError] cannot arise). *)
Definition isclose (a b rel_tol abs_tol : float) : bool :=
  if (a =? b)%float then true
  else if is_infinity a || is_infinity b then false
  else
    let diff := abs (b - a)%float in
    (diff <=? abs (rel_tol * b))%float
    || (diff <=? abs (rel_tol * a))%float
    || (diff <=? abs_tol)%float.

(** The default [rel_tol] of [math.isclose]. *)
Definition default_rel_tol : float := 1e-09%float.

(** Truth value of an [int] in a condition. *)
Definition truthy (n : Z) : bool := negb (n =? 0).

(** [str.isspace] on one ASCII character: tab, line feed, vertical tab, form
    feed, carriage return, the four separators 0x1c-0x1f, and space. *)
Definition isspace (c : ascii) : bool :=
  let n := Z.of_nat (nat_of_ascii c) in
  ((9 <=? n) && (n <=? 13)) || ((28 <=? n) && (n <=? 31)) || (n =? 32).

(** [str.lstrip()], [str.rstrip()] and [str.strip()] without argument. *)
Fixpoint lstrip (s : string) : string :=
  match s with
  | EmptyString => EmptyString
  | String c s' => if isspace c then lstrip s' else s
  end.

Fixpoint rstrip (s : string) : string :=
  match s with
  | EmptyString => EmptyString
  | String c s' =>
      match rstrip s' with
      | EmptyString => if isspace c then EmptyString else String c EmptyString
      | r => String c r
      end
  end.

Definition strip (s : string) : string := rstrip (lstrip s).

(* ===================================================================== *)
(** ** Events *)
(* ===================================================================== *)

(** [ButtonEvent], [AxisEvent] and [DPadEvent] are three named tuples with
    the same two fields, [time] and [state]; they differ in what [state]
    holds. *)
Record Event (A : Type) : Type := mkEvent { time : Z; state : A }.
Arguments mkEvent {A} time state.
Arguments time {A} e.
Arguments state {A} e.

Definition ButtonEvent : Type := Event bool.
Definition AxisEvent : Type := Event Z.
Definition DPadEvent : Type := Event Z.

(* ===================================================================== *)
(** ** The state classes *)
(* ===================================================================== *)

(** The interface every state class implements, with its instance type
    [Self], the type [Signal] of the [state] of the events it takes, and the
    type [Value] of what [value()] returns. *)
Record Class : Type := mkClass {
  Self : Type;
  Signal : Type;
  Value : Type;
  __init__ : Self;
  process_event : Event Signal -> M Self unit;
  value : M Self Value;
  clear : M Self unit;
  zero : Z -> M Self unit
}.

Module AbstractState.
(** [__call__]: [value = self.value(); self.clear(); return value], with
    [value] and [clear] those of the instance's class [C]. *)
Definition __call__ (C : Class) : M (Self C) (Value C) :=
  value <- value C ;;
  clear C ;;
  ret value.

(** [zero] and [clear] do nothing unless a subclass overrides them. *)
Definition zero {S : Type} (value : Z) : M S unit := ret tt.
Definition clear {S : Type} : M S unit := ret tt.
End AbstractState.

Module CurrentButtonState.
Record t : Type := mk { _value : bool }.

Definition __init__ : t := {| _value := false |}.

Definition process_event (event : ButtonEvent) : M t unit :=
  setattr (fun v _ => {| _value := v |}) (state event).

Definition value : M t bool := getattr _value.

Definition cls : Class :=
  mkClass t bool bool __init__ process_event value
    AbstractState.clear AbstractState.zero.
End CurrentButtonState.

Module ToggleButtonState.
Record t : Type := mk { _value : bool }.

Definition __init__ : t := {| _value := false |}.

Definition process_event (event : ButtonEvent) : M t unit :=
  v <- getattr _value ;;
  setattr (fun v _ => {| _value := v |}) (xorb v (state event)).

Definition value : M t bool := getattr _value.

Definition clear : M t unit :=
  setattr (fun v _ => {| _value := v |}) false.

Definition cls : Class :=
  mkClass t bool bool __init__ process_event value clear AbstractState.zero.
End ToggleButtonState.

Module ClickedButtonState.
Record t : Type := mk { _value : bool }.

Definition __init__ : t := {| _value := false |}.

Definition process_event (event : ButtonEvent) : M t unit :=
  v <- getattr _value ;;
  setattr (fun v _ => {| _value := v |}) (orb v (state event)).

Definition value : M t bool := getattr _value.

Definition clear : M t unit :=
  setattr (fun v _ => {| _value := v |}) false.

Definition cls : Class :=
  mkClass t bool bool __init__ process_event value clear AbstractState.zero.
End ClickedButtonState.

Module DecimalAxisState.
Definition VAR_MAX : Z := 32767.
Definition VAR_MIN : Z := -32768.

Record t : Type := mk { zero_value : Z; __value : Z }.

Definition __init__ : t := {| zero_value := 0; __value := 0 |}.

Definition process_event (event : AxisEvent) : M t unit :=
  setattr (fun v self => {| zero_value := zero_value self; __value := v |})
    (state event).

(** The local [normal] of [value] as it stands before the dead-zone test. *)
Definition normal : M t float :=
  raw <- getattr __value ;;
  zero_value <- getattr zero_value ;;
  let normal := raw - zero_value in
  if raw >? 0 then lift (truediv normal (VAR_MAX - zero_value))
  else lift (truediv (- normal) (VAR_MIN - zero_value)).

Definition value : M t pynum :=
  normal <- normal ;;
  if isclose normal 0 default_rel_tol 0.04 then ret (PyInt 0)
  else ret (PyFloat normal).

Definition zero (current : Z) : M t unit :=
  setattr (fun v self => {| zero_value := v; __value := __value self |}) current.

Definition cls : Class :=
  mkClass t Z pynum __init__ process_event value AbstractState.clear zero.
End DecimalAxisState.

Module DecimalTriggerState.
Definition VAR_MAX : Z := 32767.
Definition VAR_MIN : Z := -32768.

Record t : Type := mk { zero_value : Z; __value : Z }.

Definition __init__ : t := {| zero_value := 0; __value := 0 |}.

Definition process_event (event : AxisEvent) : M t unit :=
  setattr (fun v self => {| zero_value := zero_value self; __value := v |})
    (state event).

Definition value : M t float :=
  raw <- getattr __value ;;
  lift (truediv (raw - VAR_MIN) (VAR_MAX - VAR_MIN)).

Definition cls : Class :=
  mkClass t Z float __init__ process_event value
    AbstractState.clear AbstractState.zero.
End DecimalTriggerState.

Module PulledTriggerState.
(** The attributes inherited from [DecimalTriggerState], and [_value]. *)
Record t : Type := mk { base : DecimalTriggerState.t; _value : bool }.

Definition set_base (b : DecimalTriggerState.t) (self : t) : t :=
  {| base := b; _value := _value self |}.
Definition set__value (v : bool) (self : t) : t :=
  {| base := base self; _value := v |}.

Definition __init__ : t :=
  {| base := DecimalTriggerState.__init__; _value := false |}.

Definition process_event (event : AxisEvent) : M t unit :=
  super base set_base (DecimalTriggerState.process_event event) ;;
  v <- getattr _value ;;
  x <- super base set_base DecimalTriggerState.value ;;
  setattr set__value (orb v (0.9 <? x)%float).

Definition value : M t bool := getattr _value.

Definition clear : M t unit := setattr set__value false.

Definition cls : Class :=
  mkClass t Z bool __init__ process_event value clear AbstractState.zero.
End PulledTriggerState.

Module DPadState.
Record t : Type := mk { __value : Z }.

Definition __init__ : t := {| __value := 0 |}.

Definition process_event (event : DPadEvent) : M t unit :=
  setattr (fun v _ => {| __value := v |}) (state event).

Definition value : M t string :=
  value <- getattr __value ;;
  let result :=
    if truthy (Z.land value 1) then "u"
    else if truthy (Z.land value 4) then "d"
    else " " in
  let result :=
    if truthy (Z.land value 2) then result +:+ "r"
    else if truthy (Z.land value 8) then result +:+ "l"
    else result +:+ " " in
  ret result.

Definition cls : Class :=
  mkClass t Z string __init__ process_event value
    AbstractState.clear AbstractState.zero.
End DPadState.

Module DPadSwitchesState.
(** The source names the base class [HatState], a name the module never
    binds: as written, the class statement raises [NameError] and no
    instance exists (see [xbox] and the two theorems on it below).  What
    follows is the class with the base bound to [DPadState], the class
    whose [process_event] and [value] the two [super()] calls need; it
    stands for the eighth class where a statement ranges over all classes.
    [__value] here is this class's own attribute, apart from the inherited
    one. *)
Record t : Type := mk { base : DPadState.t; __value : gset string }.

Definition set_base (b : DPadState.t) (self : t) : t :=
  {| base := b; __value := __value self |}.
Definition set___value (v : gset string) (self : t) : t :=
  {| base := base self; __value := v |}.

Definition __init__ : t := {| base := DPadState.__init__; __value := ∅ |}.

Definition process_event (event : DPadEvent) : M t unit :=
  super base set_base (DPadState.process_event event) ;;
  position <- super base set_base DPadState.value ;;
  members <- getattr __value ;;
  setattr set___value ({[ strip position ]} ∪ members).

Definition value : M t (list string) :=
  members <- getattr __value ;;
  ret (elements members).

Definition clear : M t unit := setattr set___value ∅.

Definition cls : Class :=
  mkClass t Z (list string) __init__ process_event value clear
    AbstractState.zero.
End DPadSwitchesState.

(** The eight concrete state classes. *)
Inductive variant : Type :=
  | CurrentButton
  | ToggleButton
  | ClickedButton
  | DecimalAxis
  | DecimalTrigger
  | PulledTrigger
  | DPad
  | DPadSwitches.

Definition class_of (v : variant) : Class :=
  match v with
  | CurrentButton => CurrentButtonState.cls
  | ToggleButton => ToggleButtonState.cls
  | ClickedButton => ClickedButtonState.cls
  | DecimalAxis => DecimalAxisState.cls
  | DecimalTrigger => DecimalTriggerState.cls
  | PulledTrigger => PulledTriggerState.cls
  | DPad => DPadState.cls
  | DPadSwitches => DPadSwitchesState.cls
  end.

(** Process a list of events in order; a raise stops the run. *)
Fixpoint process_events (C : Class) (events : list (Event (Signal C)))
    : M (Self C) unit :=
  match events with
  | [] => ret tt
  | event :: events' => process_event C event ;; process_events C events'
  end.

(** One call on an instance from outside: [process_event(event)],
    [value()], [clear()], [zero(current)] or the instance called itself. *)
Inductive call (C : Class) : Type :=
  | ProcessEvent (event : Event (Signal C))
  | GetValue
  | Clear
  | Zero (current : Z)
  | Poll.
Arguments ProcessEvent {C} event.
Arguments GetValue {C}.
Arguments Clear {C}.
Arguments Zero {C} current.
Arguments Poll {C}.

(** What the caller gets back: [None] from the three methods that return
    nothing, the value from [value()] and from the instance called. *)
Definition perform (C : Class) (c : call C) : M (Self C) (option (Value C)) :=
  match c with
  | ProcessEvent event => process_event C event ;; ret None
  | GetValue => v <- value C ;; ret (Some v)
  | Clear => clear C ;; ret None
  | Zero current => zero C current ;; ret None
  | Poll => v <- AbstractState.__call__ C ;; ret (Some v)
  end.

(** A caller that goes on after an exception: every call's outcome is
    recorded, and the instance is threaded through. *)
Fixpoint run (C : Class) (calls : list (call C)) (self : Self C)
    : list (result (option (Value C))) * Self C :=
  match calls with
  | [] => ([], self)
  | c :: calls' =>
      let (r, self') := perform C c self in
      let (rs, self'') := run C calls' self' in
      (r :: rs, self'')
  end.

(** Two calls that differ at most in the [time] of the event delivered. *)
Inductive same_but_time {C : Class} : call C -> call C -> Prop :=
  | sbt_event (e1 e2 : Event (Signal C)) :
      state e1 = state e2 -> same_but_time (ProcessEvent e1) (ProcessEvent e2)
  | sbt_value : same_but_time GetValue GetValue
  | sbt_clear : same_but_time Clear Clear
  | sbt_zero (current : Z) : same_but_time (Zero current) (Zero current)
  | sbt_poll : same_but_time Poll Poll.

(** A call that does not clear the instance. *)
Definition keeps {C : Class} (c : call C) : bool :=
  match c with
  | Clear | Poll => false
  | _ => true
  end.

(** Number of events of a list that signal "pressed". *)
Definition pressed (events : list ButtonEvent) : nat :=
  length (List.filter state events).

(* ===================================================================== *)
(** ** Tools for the proofs *)
(* ===================================================================== *)

(** [P] on the [n] integers from [lo] on. *)
Fixpoint forallb_from (P : Z -> bool) (lo : Z) (n : nat) : bool :=
  match n with
  | O => true
  | S n' => P lo && forallb_from P (lo + 1) n'
  end.

(** Equality of returned numbers, floats compared bit for bit. *)
Definition pynum_eqb (a b : pynum) : bool :=
  match a, b with
  | PyInt m, PyInt n => m =? n
  | PyFloat x, PyFloat y => PrimFloat.Leibniz.eqb x y
  | _, _ => false
  end.

Definition returns_num (r : result pynum) (b : pynum) : bool :=
  match r with
  | Ok a => pynum_eqb a b
  | Raise _ => false
  end.

(** The rational a finite double stands for. *)
Definition Q_of_float (x : float) : option Q :=
  match Prim2SF x with
  | S754_zero _ => Some 0%Q
  | S754_finite s m e =>
      Some (inject_Z (if s then Zneg m else Zpos m) * Qpower 2 e)%Q
  | _ => None
  end.

(** The straight line through [(VAR_MIN, 0)] and [(VAR_MAX, 1)]. *)
Definition trigger_line (raw : Z) : Q :=
  (inject_Z (raw - DecimalTriggerState.VAR_MIN)
   / inject_Z (DecimalTriggerState.VAR_MAX - DecimalTriggerState.VAR_MIN))%Q.

(** Half a unit in the last place of a double in [[1/2, 1]]. *)
Definition half_ulp : Q := (1 # 2 ^ 54)%Q.

(** The rational that [value()] returns with the sample [raw] stored. *)
Definition trigger_value_Q (self : DecimalTriggerState.t) : option Q :=
  match returned DecimalTriggerState.value self with
  | Ok x => Q_of_float x
  | Raise _ => None
  end.

Definition on_trigger_line (raw : Z) : bool :=
  match trigger_value_Q (DecimalTriggerState.mk 0 raw) with
  | Some q => Qle_bool (Qabs (q - trigger_line raw)) half_ulp
  | None => false
  end.

(* ===================================================================== *)
(** ** What a run of calls last delivered *)
(* ===================================================================== *)

(** The [state] of the last event a list of calls delivers, if any. *)
Fixpoint last_signal {C : Class} (calls : list (call C)) : option (Signal C) :=
  match calls with
  | [] => None
  | c :: calls' =>
      match last_signal calls', c with
      | Some s, _ => Some s
      | None, ProcessEvent event => Some (state event)
      | None, _ => None
      end
  end.

(** The argument of the last [zero] of a list of calls, if any. *)
Fixpoint last_zero {C : Class} (calls : list (call C)) : option Z :=
  match calls with
  | [] => None
  | c :: calls' =>
      match last_zero calls', c with
      | Some z, _ => Some z
      | None, Zero current => Some current
      | None, _ => None
      end
  end.

(** A call that delivers a pressed button event. *)
Definition presses (c : call ClickedButtonState.cls) : bool :=
  match c with
  | ProcessEvent event => state event
  | _ => false
  end.

(** The least sample that [PulledTriggerState] latches on. *)
Definition pull_threshold : Z := 26214.

Definition pull_threshold_ok (raw : Z) : bool :=
  match returned DecimalTriggerState.value (DecimalTriggerState.mk 0 raw) with
  | Ok x => Bool.eqb (0.9 <? x)%float (pull_threshold <=? raw)
  | Raise _ => false
  end.

(** The samples a new [DecimalAxisState] reports as [0]. *)
Definition rest_band : Z := 1310.

Definition fresh_axis_ok (raw : Z) : bool :=
  match returned DecimalAxisState.value (DecimalAxisState.mk 0 raw) with
  | Ok (PyInt n) => (n =? 0) && (- rest_band <=? raw) && (raw <=? rest_band)
  | Ok (PyFloat x) =>
      match Q_of_float x with
      | Some q =>
          ((rest_band <? raw) && negb (Qle_bool q (1 # 25)) && Qle_bool q 1)
          || ((raw <? - rest_band) && Qle_bool (- (1)) q
              && negb (Qle_bool (- (1 # 25)) q))
      | None => false
      end
  | Raise _ => false
  end.

(** A hat code as the joystick API reports it: no two opposite
    directions at once. *)
Definition hat_code (code : Z) : bool :=
  negb (Z.testbit code 0 && Z.testbit code 2)
  && negb (Z.testbit code 1 && Z.testbit code 3).

(** Samples of the hardware range where a call divides by the constant
    [VAR_MAX - VAR_MIN]: the sample a [DecimalTriggerState] holds, and the
    sample an event brings to a [PulledTriggerState]. *)
Definition samples_in_range (v : variant)
    : call (class_of v) -> Self (class_of v) -> Prop :=
  match v with
  | DecimalTrigger => fun _ self =>
      DecimalTriggerState.VAR_MIN <= DecimalTriggerState.__value self
        <= DecimalTriggerState.VAR_MAX
  | PulledTrigger => fun c _ =>
      match c with
      | ProcessEvent event =>
          DecimalTriggerState.VAR_MIN <= state event
            <= DecimalTriggerState.VAR_MAX
      | _ => True
      end
  | _ => fun _ _ => True
  end.

(* ===================================================================== *)
(** ** The top level of the module *)
(* ===================================================================== *)

(** A statement of the module's top level, by what running it needs and
    gives: its line, the global names it looks up (a class statement its
    base, an assignment the function it calls) and the name it binds.
    Method bodies run when called, not here.  Annotations are left out:
    Python 3.14 does not evaluate them when a function is defined; earlier
    versions do, and stop already at line 172, on [HatEvent]. *)
Record statement : Type :=
  mkStatement { line : nat; loads : list string; binds : string }.

(** [NameError: name '...' is not defined]. *)
Inductive NameError : Type :=
  | name_not_defined (name : string).

(** Of the names Python has built in, the one the top level looks up. *)
Definition builtins : list string := ["object"].

(** The imports, the four named tuples and the ten class statements of
    [xbox.py], in order. *)
Definition xbox : list statement :=
  [ mkStatement 5 [] "isclose";
    mkStatement 6 [] "namedtuple";
    mkStatement 7 [] "sdl2";
    mkStatement 8 [] "sdl2";
    mkStatement 10 ["namedtuple"] "ButtonEvent";
    mkStatement 11 ["namedtuple"] "AxisEvent";
    mkStatement 12 ["namedtuple"] "DPadEvent";
    mkStatement 13 ["namedtuple"] "DeviceEvent";
    mkStatement 16 ["object"] "AbstractState";
    mkStatement 44 ["AbstractState"] "CurrentButtonState";
    mkStatement 59 ["AbstractState"] "ToggleButtonState";
    mkStatement 76 ["AbstractState"] "ClickedButtonState";
    mkStatement 93 ["AbstractState"] "DecimalAxisState";
    mkStatement 122 ["AbstractState"] "DecimalTriggerState";
    mkStatement 140 ["DecimalTriggerState"] "PulledTriggerState";
    mkStatement 159 ["AbstractState"] "DPadState";
    mkStatement 194 ["HatState"] "DPadSwitchesState";
    mkStatement 213 ["object"] "Controller" ].

(** The first of [names] that is bound neither in the module nor built
    in. *)
Definition first_unbound (globals names : list string) : option string :=
  List.find (fun name => negb (bool_decide (name ∈ globals ++ builtins)))
    names.

(** Running statements in order, [globals] being the names bound so far:
    the run stops at the first statement that looks up an unbound name,
    and returns that line with the error, or nothing, and the names
    bound. *)
Fixpoint exec (body : list statement) (globals : list string)
    : option (nat * NameError) * list string :=
  match body with
  | [] => (None, globals)
  | s :: body' =>
      match first_unbound globals (loads s) with
      | Some name => (Some (line s, name_not_defined name), globals)
      | None => exec body' (binds s :: globals)
      end
  end.

Lemma Ok_inj {A : Type} (a b : A) : Ok a = Ok b -> a = b.
Proof. intros H. now injection H. Qed.

Lemma forallb_from_spec (P : Z -> bool) (n : nat) :
  forall lo, forallb_from P lo n = true ->
  forall z, lo <= z < lo + Z.of_nat n -> P z = true.
Proof.
  induction n as [|n IH]; intros lo H z Hz.
  - lia.
  - cbn [forallb_from] in H. apply andb_true_iff in H as [H0 H1].
    destruct (Z.eq_dec z lo) as [->|Hne]; [exact H0|].
    apply (IH (lo + 1) H1). lia.
Qed.

Lemma pynum_eqb_eq (a b : pynum) : pynum_eqb a b = true -> a = b.
Proof.
  destruct a as [m|x], b as [n|y]; cbn; intros H; try discriminate.
  - apply Z.eqb_eq in H. now subst.
  - apply FloatAxioms.Leibniz.eqb_spec in H. now subst.
Qed.

Lemma returns_num_eq (r : result pynum) (b : pynum) :
  returns_num r b = true -> r = Ok b.
Proof.
  destruct r as [a|e]; cbn; intros H; [|discriminate].
  f_equal. now apply pynum_eqb_eq.
Qed.

(** A double of magnitude at most 0.04 is close to 0 whatever [rel_tol]. *)
Lemma isclose_dead_zone (x rel_tol : float) :
  (abs x <=? 0.04)%float = true -> isclose x 0 rel_tol 0.04 = true.
Proof.
  intros H. unfold isclose.
  destruct (x =? 0)%float; [reflexivity|].
  rewrite FloatAxioms.leb_spec, FloatAxioms.abs_spec in H.
  assert (Hinf : is_infinity x = false).
  { unfold is_infinity. rewrite FloatAxioms.eqb_spec, FloatAxioms.abs_spec.
    destruct (Prim2SF x) as [s|s| |s m e]; try reflexivity; discriminate H. }
  rewrite Hinf. cbn [orb].
  replace (is_infinity 0) with false by reflexivity.
  assert (Hd : (abs (0 - x) <=? 0.04)%float = true).
  { rewrite FloatAxioms.leb_spec, FloatAxioms.abs_spec, FloatAxioms.sub_spec.
    change (Prim2SF 0) with (S754_zero false).
    destruct (Prim2SF x) as [s|s| |s m e]; try discriminate H.
    - destruct s; exact H.
    - exact H. }
  rewrite Hd. now rewrite !orb_true_r.
Qed.

(* ===================================================================== *)
(** ** The calibrated axis *)
(* ===================================================================== *)

(** Whatever the instance was, [zero(z)] then [process_event] of a sample
    [raw] leaves exactly these two attributes. *)
Lemma decimal_axis_calibrate (self : DecimalAxisState.t) (z tm raw : Z) :
  after (DecimalAxisState.zero z ;;
         DecimalAxisState.process_event (mkEvent tm raw)) self
  = DecimalAxisState.mk z raw.
Proof. reflexivity. Qed.

(** [value()] reads the instance and leaves it as it was. *)
Lemma decimal_axis_normal_pure (self : DecimalAxisState.t) :
  after DecimalAxisState.normal self = self.
Proof.
  unfold after, DecimalAxisState.normal, bind, getattr, lift. cbn.
  destruct (_ >? 0); reflexivity.
Qed.

Lemma decimal_axis_value_pure (self : DecimalAxisState.t) :
  after DecimalAxisState.value self = self.
Proof.
  pose proof (decimal_axis_normal_pure self) as H.
  unfold after, DecimalAxisState.value, bind in *.
  destruct (DecimalAxisState.normal self) as [[x|e] self']; cbn in *; subst.
  - destruct (isclose _ _ _ _); reflexivity.
  - reflexivity.
Qed.

(** The three calibration points, checked on each of the 65534 zero
    references strictly inside the hardware range. *)
Lemma decimal_axis_points_checked :
  forallb_from
    (fun z =>
       returns_num
         (returned DecimalAxisState.value
            (DecimalAxisState.mk z DecimalAxisState.VAR_MAX)) (PyFloat 1)
       && returns_num
         (returned DecimalAxisState.value
            (DecimalAxisState.mk z DecimalAxisState.VAR_MIN)) (PyFloat (-1))
       && returns_num
         (returned DecimalAxisState.value (DecimalAxisState.mk z z)) (PyInt 0))
    (DecimalAxisState.VAR_MIN + 1) (Z.to_nat 65534) = true.
Proof. vm_compute. reflexivity. Qed.

(** The dead zone: a normalized value of magnitude at most 0.04 is
    reported as the integer 0. *)
Lemma decimal_axis_dead_zone (self : DecimalAxisState.t) (x : float) :
  returned DecimalAxisState.normal self = Ok x ->
  (abs x <=? 0.04)%float = true ->
  returned DecimalAxisState.value self = Ok (PyInt 0).
Proof.
  intros Hx Hsmall.
  unfold returned, DecimalAxisState.value, bind in *.
  destruct (DecimalAxisState.normal self) as [r self']. cbn in Hx. subst r.
  now rewrite (isclose_dead_zone x _ Hsmall).
Qed.

(** C1. With the zero reference set by [zero(z)] for [VAR_MIN < z < VAR_MAX]:
    after the sample [VAR_MAX], [value()] returns [1.0]; after [VAR_MIN] it
    returns [-1.0]; after [z] it returns [0]; and after any sample whose
    normalized value has magnitude at most [0.04] it returns exactly [0]. *)
Theorem decimal_axis_calibrated (z : Z) (self : DecimalAxisState.t) (tm : Z) :
  DecimalAxisState.VAR_MIN < z < DecimalAxisState.VAR_MAX ->
  let sampled raw :=
    after (DecimalAxisState.zero z ;;
           DecimalAxisState.process_event (mkEvent tm raw)) self in
  returned DecimalAxisState.value (sampled DecimalAxisState.VAR_MAX)
    = Ok (PyFloat 1)
  /\ returned DecimalAxisState.value (sampled DecimalAxisState.VAR_MIN)
    = Ok (PyFloat (-1))
  /\ returned DecimalAxisState.value (sampled z) = Ok (PyInt 0)
  /\ forall raw x,
       returned DecimalAxisState.normal (sampled raw) = Ok x ->
       (abs x <=? 0.04)%float = true ->
       returned DecimalAxisState.value (sampled raw) = Ok (PyInt 0).
Proof.
  intros Hz sampled. subst sampled. cbv beta.
  rewrite !decimal_axis_calibrate.
  pose proof (forallb_from_spec _ _ _ decimal_axis_points_checked z) as H.
  cbv beta in H.
  assert (Hr : DecimalAxisState.VAR_MIN + 1 <= z
               < DecimalAxisState.VAR_MIN + 1 + Z.of_nat (Z.to_nat 65534)).
  { rewrite Z2Nat.id by lia. unfold DecimalAxisState.VAR_MIN,
      DecimalAxisState.VAR_MAX in *. lia. }
  specialize (H Hr).
  apply andb_true_iff in H as [H H0].
  apply andb_true_iff in H as [Hmax Hmin].
  repeat split.
  - now apply returns_num_eq.
  - now apply returns_num_eq.
  - now apply returns_num_eq.
  - intros raw x. rewrite decimal_axis_calibrate.
    apply decimal_axis_dead_zone.
Qed.

Lemma decimal_axis_calibrated_witness :
  let sampled raw :=
    after (DecimalAxisState.zero 512 ;;
           DecimalAxisState.process_event (mkEvent 7 raw))
      DecimalAxisState.__init__ in
  returned DecimalAxisState.value (sampled 32767) = Ok (PyFloat 1)
  /\ returned DecimalAxisState.value (sampled (-32768)) = Ok (PyFloat (-1))
  /\ returned DecimalAxisState.value (sampled 512) = Ok (PyInt 0)
  /\ returned DecimalAxisState.value (sampled 1800) = Ok (PyInt 0).
Proof.
  assert (Hz : DecimalAxisState.VAR_MIN < 512 < DecimalAxisState.VAR_MAX)
    by (unfold DecimalAxisState.VAR_MIN, DecimalAxisState.VAR_MAX; lia).
  destruct (decimal_axis_calibrated 512 DecimalAxisState.__init__ 7 Hz)
    as (Hmax & Hmin & Hzero & Hdead).
  intros sampled. subst sampled. cbv beta.
  split; [exact Hmax|]. split; [exact Hmin|]. split; [exact Hzero|].
  eapply Hdead; vm_compute; reflexivity.
Defined.

(** [value()] raises exactly when the divisor its branch picks is zero. *)
Lemma decimal_axis_raises_iff (self : DecimalAxisState.t) :
  returned DecimalAxisState.value self = Raise ZeroDivisionError
  <-> (DecimalAxisState.__value self > 0
       /\ DecimalAxisState.VAR_MAX - DecimalAxisState.zero_value self = 0)
      \/ (DecimalAxisState.__value self <= 0
          /\ DecimalAxisState.VAR_MIN - DecimalAxisState.zero_value self = 0).
Proof.
  destruct self as [z raw].
  unfold returned, DecimalAxisState.value, DecimalAxisState.normal, bind,
    getattr, lift, truediv. cbn.
  destruct (Z.gtb_spec raw 0) as [Hpos|Hneg].
  - destruct (Z.eqb_spec (DecimalAxisState.VAR_MAX - z) 0) as [Hd|Hd]; cbn.
    + split; [intros _; left; lia | reflexivity].
    + split.
      * destruct (isclose _ _ _ _); discriminate.
      * intros [[_ H]|[H _]]; lia.
  - destruct (Z.eqb_spec (DecimalAxisState.VAR_MIN - z) 0) as [Hd|Hd]; cbn.
    + split; [intros _; right; lia | reflexivity].
    + split.
      * destruct (isclose _ _ _ _); discriminate.
      * intros [[H _]|[_ H]]; lia.
Qed.

(** C10. With the zero reference strictly between [VAR_MIN] and [VAR_MAX]
    both divisors of [value()] are nonzero and it does not raise
    [ZeroDivisionError]; with the zero reference at [VAR_MAX] and a positive
    stored sample, or at [VAR_MIN] and a non-positive one, it does. *)
Theorem decimal_axis_zero_divisor (self : DecimalAxisState.t) :
  (DecimalAxisState.VAR_MIN < DecimalAxisState.zero_value self
     < DecimalAxisState.VAR_MAX ->
   DecimalAxisState.VAR_MAX - DecimalAxisState.zero_value self <> 0
   /\ DecimalAxisState.VAR_MIN - DecimalAxisState.zero_value self <> 0
   /\ returned DecimalAxisState.value self <> Raise ZeroDivisionError)
  /\ (DecimalAxisState.zero_value self = DecimalAxisState.VAR_MAX ->
      DecimalAxisState.__value self > 0 ->
      returned DecimalAxisState.value self = Raise ZeroDivisionError)
  /\ (DecimalAxisState.zero_value self = DecimalAxisState.VAR_MIN ->
      DecimalAxisState.__value self <= 0 ->
      returned DecimalAxisState.value self = Raise ZeroDivisionError).
Proof.
  split; [|split].
  - intros Hz. split; [lia|]. split; [lia|].
    intros E. apply decimal_axis_raises_iff in E. lia.
  - intros Hz Hraw. apply decimal_axis_raises_iff. left. lia.
  - intros Hz Hraw. apply decimal_axis_raises_iff. right. lia.
Qed.

Lemma decimal_axis_zero_divisor_witness :
  (32767 - 512 <> 0 /\ -32768 - 512 <> 0
   /\ returned DecimalAxisState.value (DecimalAxisState.mk 512 9)
      <> Raise ZeroDivisionError)
  /\ returned DecimalAxisState.value (DecimalAxisState.mk 32767 9)
     = Raise ZeroDivisionError
  /\ returned DecimalAxisState.value (DecimalAxisState.mk (-32768) 0)
     = Raise ZeroDivisionError.
Proof.
  destruct (decimal_axis_zero_divisor (DecimalAxisState.mk 512 9))
    as (Hin & _ & _).
  destruct (decimal_axis_zero_divisor (DecimalAxisState.mk 32767 9))
    as (_ & Hmax & _).
  destruct (decimal_axis_zero_divisor (DecimalAxisState.mk (-32768) 0))
    as (_ & _ & Hmin).
  split; [|split].
  - apply Hin. unfold DecimalAxisState.VAR_MIN, DecimalAxisState.VAR_MAX.
    cbn. lia.
  - apply Hmax; [reflexivity | cbn; lia].
  - apply Hmin; [reflexivity | cbn; lia].
Defined.

(* ===================================================================== *)
(** ** The unlatched trigger *)
(* ===================================================================== *)

Lemma decimal_trigger_sample (self : DecimalTriggerState.t) (tm raw : Z) :
  after (DecimalTriggerState.process_event (mkEvent tm raw)) self
  = DecimalTriggerState.mk (DecimalTriggerState.zero_value self) raw.
Proof. reflexivity. Qed.

Lemma decimal_trigger_process (self : DecimalTriggerState.t)
    (event : AxisEvent) :
  after (DecimalTriggerState.process_event event) self
  = DecimalTriggerState.mk (DecimalTriggerState.zero_value self) (state event).
Proof. reflexivity. Qed.

(** [value()] reads [__value] alone, never raises, and mutates nothing. *)
Lemma decimal_trigger_value_run (self : DecimalTriggerState.t) :
  DecimalTriggerState.value self
  = (Ok (float_of_int (DecimalTriggerState.__value self
                       - DecimalTriggerState.VAR_MIN)
         / float_of_int 65535)%float, self).
Proof. reflexivity. Qed.

Lemma trigger_value_Q_raw (self : DecimalTriggerState.t) :
  trigger_value_Q self
  = trigger_value_Q
      (DecimalTriggerState.mk 0 (DecimalTriggerState.__value self)).
Proof. reflexivity. Qed.

(** Every sample of the hardware range, checked one by one. *)
Lemma decimal_trigger_line_checked :
  forallb_from on_trigger_line DecimalTriggerState.VAR_MIN (Z.to_nat 65536)
  = true.
Proof. vm_compute. reflexivity. Qed.

Lemma decimal_trigger_on_line (self : DecimalTriggerState.t) :
  DecimalTriggerState.VAR_MIN <= DecimalTriggerState.__value self
    <= DecimalTriggerState.VAR_MAX ->
  exists q, trigger_value_Q self = Some q
    /\ (Qabs (q - trigger_line (DecimalTriggerState.__value self))
        <= half_ulp)%Q.
Proof.
  intros Hraw. rewrite trigger_value_Q_raw.
  pose proof (forallb_from_spec _ _ _ decimal_trigger_line_checked
                (DecimalTriggerState.__value self)) as H.
  unfold on_trigger_line in H.
  destruct (trigger_value_Q _) as [q|].
  - exists q. split; [reflexivity|]. apply Qle_bool_iff, H.
    rewrite Z2Nat.id by lia.
    unfold DecimalTriggerState.VAR_MIN, DecimalTriggerState.VAR_MAX in *. lia.
  - discriminate H. rewrite Z2Nat.id by lia.
    unfold DecimalTriggerState.VAR_MIN, DecimalTriggerState.VAR_MAX in *. lia.
Qed.

(** The line is affine: it takes midpoints to midpoints. *)
Lemma trigger_line_midpoint (a b m : Z) :
  a + b = 2 * m ->
  (trigger_line a + trigger_line b == 2 * trigger_line m)%Q.
Proof.
  intros H. unfold trigger_line, Qeq, Qdiv, Qmult, Qplus, Qinv, inject_Z.
  cbn. lia.
Qed.

(** C8. After the sample [VAR_MIN], [value()] returns [0.0]; after
    [VAR_MAX] it returns [1.0]; for every sample of [[VAR_MIN, VAR_MAX]] the
    double returned lies within half a unit in the last place of the point
    of the straight line from [(VAR_MIN, 0)] to [(VAR_MAX, 1)], so that the
    value at the midpoint of two samples is the mean of their values up to
    rounding; the two samples next to the centre of the range give the two
    doubles next to one half on that line. *)
Theorem decimal_trigger_linear (self : DecimalTriggerState.t) (tm : Z) :
  let sampled raw :=
    after (DecimalTriggerState.process_event (mkEvent tm raw)) self in
  returned DecimalTriggerState.value (sampled DecimalTriggerState.VAR_MIN)
    = Ok 0%float
  /\ returned DecimalTriggerState.value (sampled DecimalTriggerState.VAR_MAX)
    = Ok 1%float
  /\ (forall raw,
        DecimalTriggerState.VAR_MIN <= raw <= DecimalTriggerState.VAR_MAX ->
        exists q, trigger_value_Q (sampled raw) = Some q
          /\ (Qabs (q - trigger_line raw) <= half_ulp)%Q)
  /\ (forall a b m qa qb qm,
        DecimalTriggerState.VAR_MIN <= a <= DecimalTriggerState.VAR_MAX ->
        DecimalTriggerState.VAR_MIN <= b <= DecimalTriggerState.VAR_MAX ->
        a + b = 2 * m ->
        trigger_value_Q (sampled a) = Some qa ->
        trigger_value_Q (sampled b) = Some qb ->
        trigger_value_Q (sampled m) = Some qm ->
        (Qabs (2 * qm - (qa + qb)) <= 4 * half_ulp)%Q)
  /\ returned DecimalTriggerState.value (sampled (-1))
     = Ok 0.49999237048905165%float
  /\ returned DecimalTriggerState.value (sampled 0)
     = Ok 0.50000762951094835%float.
Proof.
  intros sampled. subst sampled. cbv beta.
  split; [reflexivity|]. split; [reflexivity|].
  assert (Hline : forall raw,
    DecimalTriggerState.VAR_MIN <= raw <= DecimalTriggerState.VAR_MAX ->
    exists q,
      trigger_value_Q
        (after (DecimalTriggerState.process_event (mkEvent tm raw)) self)
      = Some q
      /\ (Qabs (q - trigger_line raw) <= half_ulp)%Q).
  { intros raw Hraw. rewrite decimal_trigger_sample.
    apply (decimal_trigger_on_line (DecimalTriggerState.mk _ raw)), Hraw. }
  split; [exact Hline|]. split; [|split; reflexivity].
  intros a b m qa qb qm Ha Hb Hm Ea Eb Em.
  destruct (Hline a Ha) as (qa' & Ea' & Ba).
  destruct (Hline b Hb) as (qb' & Eb' & Bb).
  destruct (Hline m ltac:(lia)) as (qm' & Em' & Bm).
  rewrite Ea in Ea'. rewrite Eb in Eb'. rewrite Em in Em'.
  injection Ea' as <-. injection Eb' as <-. injection Em' as <-.
  pose proof (trigger_line_midpoint a b m Hm) as Hmid.
  apply Qabs_Qle_condition in Ba, Bb, Bm. apply Qabs_Qle_condition.
  unfold half_ulp in *. cbn in *. split; lra.
Qed.

Lemma decimal_trigger_linear_witness :
  let sampled raw :=
    after (DecimalTriggerState.process_event (mkEvent 7 raw))
      DecimalTriggerState.__init__ in
  (exists q, trigger_value_Q (sampled 16383) = Some q
     /\ (Qabs (q - trigger_line 16383) <= half_ulp)%Q)
  /\ (exists qa qb qm,
        trigger_value_Q (sampled (-32768)) = Some qa
        /\ trigger_value_Q (sampled 32766) = Some qb
        /\ trigger_value_Q (sampled (-1)) = Some qm
        /\ (Qabs (2 * qm - (qa + qb)) <= 4 * half_ulp)%Q).
Proof.
  intros sampled. subst sampled. cbv beta.
  destruct (decimal_trigger_linear DecimalTriggerState.__init__ 7)
    as (_ & _ & Hline & Hmid & _).
  split.
  - apply Hline.
    unfold DecimalTriggerState.VAR_MIN, DecimalTriggerState.VAR_MAX. lia.
  - do 3 eexists.
    split; [vm_compute; reflexivity|].
    split; [vm_compute; reflexivity|].
    split; [vm_compute; reflexivity|].
    apply (Hmid (-32768) 32766 (-1));
      unfold DecimalTriggerState.VAR_MIN, DecimalTriggerState.VAR_MAX;
      try lia; vm_compute; reflexivity.
Defined.

(* ===================================================================== *)
(** ** The pulled-trigger latch *)
(* ===================================================================== *)

(** One [process_event], run: the sample is stored in the inherited
    attribute and the latch is or-ed with the threshold test on the
    inherited [value()]. *)
Lemma pulled_trigger_process_run (self : PulledTriggerState.t)
    (event : AxisEvent) :
  PulledTriggerState.process_event event self
  = (Ok tt,
     PulledTriggerState.mk
       (DecimalTriggerState.mk
          (DecimalTriggerState.zero_value (PulledTriggerState.base self))
          (state event))
       (PulledTriggerState._value self
        || (0.9 <? float_of_int (state event - DecimalTriggerState.VAR_MIN)
                    / float_of_int 65535)%float)).
Proof. reflexivity. Qed.

(** No call other than [clear()] and the instance called resets a set
    latch. *)
Lemma pulled_trigger_perform_keeps (c : call PulledTriggerState.cls)
    (self : PulledTriggerState.t) :
  keeps c = true ->
  PulledTriggerState._value self = true ->
  PulledTriggerState._value (after (perform PulledTriggerState.cls c) self)
  = true.
Proof.
  intros Hc Hv. destruct c as [event| | |current|]; try discriminate Hc.
  - unfold after, perform, bind. cbn [process_event PulledTriggerState.cls].
    rewrite pulled_trigger_process_run. cbn. now rewrite Hv.
  - exact Hv.
  - exact Hv.
Qed.

Lemma pulled_trigger_run_keeps (calls : list (call PulledTriggerState.cls)) :
  forall self : PulledTriggerState.t,
  forallb keeps calls = true ->
  PulledTriggerState._value self = true ->
  PulledTriggerState._value (snd (run PulledTriggerState.cls calls self))
  = true.
Proof.
  induction calls as [|c calls IH]; intros self Hc Hv.
  - exact Hv.
  - cbn [forallb] in Hc. apply andb_true_iff in Hc as [Hc Hcs].
    pose proof (pulled_trigger_perform_keeps c self Hc Hv) as H1.
    cbn [run]. unfold after in H1.
    destruct (perform PulledTriggerState.cls c self) as [r self1].
    specialize (IH self1 Hcs H1).
    destruct (run PulledTriggerState.cls calls self1) as [rs self2].
    exact IH.
Qed.

(** C4. A new latch reads false.  Once a processed sample makes the
    inherited normalized value exceed [0.9], [value()] is true after any
    further calls that are not [clear()] (nor the instance called, which
    clears), whatever samples they deliver.  [clear()] resets the latch and
    leaves the inherited attributes as they were. *)
Theorem pulled_trigger_latch :
  returned PulledTriggerState.value PulledTriggerState.__init__ = Ok false
  /\ (forall (self : PulledTriggerState.t) (event : AxisEvent) (x : float)
        (calls : list (call PulledTriggerState.cls)),
        returned DecimalTriggerState.value
          (after (DecimalTriggerState.process_event event)
             (PulledTriggerState.base self)) = Ok x ->
        (0.9 <? x)%float = true ->
        forallb keeps calls = true ->
        returned PulledTriggerState.value
          (snd (run PulledTriggerState.cls calls
                  (after (PulledTriggerState.process_event event) self)))
        = Ok true)
  /\ (forall self : PulledTriggerState.t,
        after PulledTriggerState.clear self
        = PulledTriggerState.mk (PulledTriggerState.base self) false).
Proof.
  split; [reflexivity|]. split; [|reflexivity].
  intros self event x calls Hx Hgt Hcalls.
  unfold returned, PulledTriggerState.value, getattr. cbn [fst].
  f_equal. apply pulled_trigger_run_keeps; [exact Hcalls|].
  unfold after. rewrite pulled_trigger_process_run. cbn [snd].
  unfold returned in Hx.
  rewrite decimal_trigger_process, decimal_trigger_value_run in Hx.
  cbn [fst DecimalTriggerState.__value] in Hx. injection Hx as Hx.
  cbn [PulledTriggerState._value]. subst x.
  apply orb_true_iff. right. exact Hgt.
Qed.

Lemma pulled_trigger_latch_witness :
  returned PulledTriggerState.value
    (snd (run PulledTriggerState.cls
            [@ProcessEvent PulledTriggerState.cls (mkEvent 11 (-32768));
             GetValue; Zero 5;
             @ProcessEvent PulledTriggerState.cls (mkEvent 12 0)]
            (after (PulledTriggerState.process_event (mkEvent 10 30000))
               PulledTriggerState.__init__)))
  = Ok true.
Proof.
  destruct pulled_trigger_latch as (_ & Hlatch & _).
  eapply Hlatch; vm_compute; reflexivity.
Defined.

(** Below the threshold nothing latches: the sample 26213 normalizes to
    less than [0.9], the next sample 26214 to more. *)
Example pulled_trigger_threshold :
  returned PulledTriggerState.value
    (after (PulledTriggerState.process_event (mkEvent 0 26213))
       PulledTriggerState.__init__) = Ok false
  /\ returned PulledTriggerState.value
    (after (PulledTriggerState.process_event (mkEvent 0 26214))
       PulledTriggerState.__init__) = Ok true.
Proof. split; reflexivity. Qed.

(* ===================================================================== *)
(** ** The toggle *)
(* ===================================================================== *)

Lemma toggle_process_run (self : ToggleButtonState.t) (event : ButtonEvent) :
  ToggleButtonState.process_event event self
  = (Ok tt,
     ToggleButtonState.mk (xorb (ToggleButtonState._value self) (state event))).
Proof. reflexivity. Qed.

(** A run of events flips the toggle once per pressed event. *)
Lemma toggle_process_events (events : list ButtonEvent) :
  forall self : ToggleButtonState.t,
  process_events ToggleButtonState.cls events self
  = (Ok tt,
     ToggleButtonState.mk
       (xorb (ToggleButtonState._value self) (Nat.odd (pressed events)))).
Proof.
  induction events as [|event events IH]; intros [v].
  - cbn. now rewrite xorb_false_r.
  - cbn [process_events]. unfold bind.
    cbn [process_event ToggleButtonState.cls].
    rewrite toggle_process_run, IH. cbn [ToggleButtonState._value].
    do 2 f_equal. unfold pressed. cbn [List.filter].
    destruct (state event); cbn [length].
    + rewrite Nat.odd_succ, <- Nat.negb_odd.
      now destruct v, (Nat.odd _).
    + now rewrite xorb_false_r.
Qed.

(** C5. From a new toggle, after any run of events of which N signal
    pressed, [value()] is [N mod 2 == 1]; an event that signals released
    changes nothing; [clear()] makes the instance a new toggle again, so
    [value()] is false and the count starts over. *)
Theorem toggle_parity :
  (forall events : list ButtonEvent,
     returned ToggleButtonState.value
       (after (process_events ToggleButtonState.cls events)
          ToggleButtonState.__init__)
     = Ok (pressed events mod 2 =? 1)%nat)
  /\ (forall (self : ToggleButtonState.t) (tm : Z),
        after (ToggleButtonState.process_event (mkEvent tm false)) self = self)
  /\ (forall self : ToggleButtonState.t,
        after ToggleButtonState.clear self = ToggleButtonState.__init__
        /\ returned ToggleButtonState.value
             (after ToggleButtonState.clear self) = Ok false).
Proof.
  split; [|split].
  - intros events. unfold after.
    rewrite toggle_process_events. cbn.
    now rewrite <- Nat.bit0_odd, Nat.bit0_eqb.
  - intros [v] tm. unfold after. rewrite toggle_process_run. cbn.
    now rewrite xorb_false_r.
  - intros self. split; reflexivity.
Qed.

(* ===================================================================== *)
(** ** The directional pad *)
(* ===================================================================== *)

(** Masking with a power of two tests one bit. *)
Lemma truthy_land_pow2 (n k : Z) :
  0 <= k -> truthy (Z.land n (2 ^ k)) = Z.testbit n k.
Proof.
  intros Hk. unfold truthy.
  assert (H : Z.land n (2 ^ k) = if Z.testbit n k then 2 ^ k else 0).
  { apply Z.bits_inj'. intros m Hm.
    rewrite Z.land_spec, Z.pow2_bits_eqb by exact Hk.
    destruct (Z.eqb_spec k m) as [->|Hne].
    - destruct (Z.testbit n m); cbn.
      + now rewrite Z.pow2_bits_eqb, Z.eqb_refl.
      + now rewrite Z.bits_0.
    - rewrite andb_false_r. destruct (Z.testbit n k).
      + rewrite Z.pow2_bits_eqb by exact Hk.
        symmetry. now apply Z.eqb_neq.
      + now rewrite Z.bits_0. }
  rewrite H. destruct (Z.testbit n k).
  - apply negb_true_iff, Z.eqb_neq. apply Z.pow_nonzero; lia.
  - reflexivity.
Qed.

(** The two characters of [value()], bit by bit. *)
Lemma dpad_value_bits (code : Z) :
  returned DPadState.value (DPadState.mk code)
  = Ok (String
          (if Z.testbit code 0 then "u"
           else if Z.testbit code 2 then "d" else " ")%char
          (String
             (if Z.testbit code 1 then "r"
              else if Z.testbit code 3 then "l" else " ")%char
             EmptyString)).
Proof.
  unfold returned, DPadState.value, bind, getattr, ret.
  cbn [fst snd DPadState.__value].
  rewrite (truthy_land_pow2 code 0 ltac:(lia) : truthy (Z.land code 1) = _),
    (truthy_land_pow2 code 1 ltac:(lia) : truthy (Z.land code 2) = _),
    (truthy_land_pow2 code 2 ltac:(lia) : truthy (Z.land code 4) = _),
    (truthy_land_pow2 code 3 ltac:(lia) : truthy (Z.land code 8) = _).
  destruct (Z.testbit code 0), (Z.testbit code 1), (Z.testbit code 2),
    (Z.testbit code 3); reflexivity.
Qed.

(** C6. [value()] is a string of two characters: the first is ['u'] if
    bit 0 of the stored code is set, else ['d'] if bit 2 is set, else a
    space; the second is ['r'] if bit 1 is set, else ['l'] if bit 3 is set,
    else a space.  So the codes 0b0000, 0b0001, 0b0011 and 0b1100 read
    ["  "], ["u "], ["ur"] and ["dl"]. *)
Theorem dpad_decode (self : DPadState.t) (tm : Z) :
  let code := DPadState.__value self in
  let sampled c := after (DPadState.process_event (mkEvent tm c)) self in
  returned DPadState.value self
  = Ok (String
          (if Z.testbit code 0 then "u"
           else if Z.testbit code 2 then "d" else " ")%char
          (String
             (if Z.testbit code 1 then "r"
              else if Z.testbit code 3 then "l" else " ")%char
             EmptyString))
  /\ returned DPadState.value (sampled 0) = Ok "  "
  /\ returned DPadState.value (sampled 1) = Ok "u "
  /\ returned DPadState.value (sampled 3) = Ok "ur"
  /\ returned DPadState.value (sampled 12) = Ok "dl".
Proof.
  intros code sampled. subst code sampled. cbv beta.
  split; [|repeat split].
  destruct self as [code]. apply dpad_value_bits.
Qed.

(** One [process_event] of the accumulated set, run: the code is stored by
    the inherited method, then the inherited [value()] of the stored code,
    stripped, is added to the set. *)
Lemma dpad_switches_process_run (self : DPadSwitchesState.t)
    (event : DPadEvent) (position : string) :
  returned DPadState.value (DPadState.mk (state event)) = Ok position ->
  DPadSwitchesState.process_event event self
  = (Ok tt,
     DPadSwitchesState.mk (DPadState.mk (state event))
       ({[ strip position ]} ∪ DPadSwitchesState.__value self)).
Proof.
  intros H. unfold DPadSwitchesState.process_event, super, bind, getattr,
    setattr.
  cbn [DPadState.process_event DPadSwitchesState.base setattr
       DPadSwitchesState.set_base DPadSwitchesState.__value].
  unfold setattr. cbn [DPadSwitchesState.base DPadSwitchesState.set_base].
  unfold returned in H.
  destruct (DPadState.value (DPadState.mk (state event))) as [r b] eqn:E.
  cbn [fst] in H. subst r.
  assert (Hb : b = DPadState.mk (state event)).
  { unfold DPadState.value, bind, getattr, ret in E. cbn in E.
    now injection E. }
  subst b. reflexivity.
Qed.

(** The stripped position is the letters of the position without its
    spaces: the vertical letter, if any, then the horizontal one, if any. *)
Lemma dpad_strip_letters (code : Z) (position : string) :
  returned DPadState.value (DPadState.mk code) = Ok position ->
  strip position
  = ((if Z.testbit code 0 then "u" else if Z.testbit code 2 then "d" else "")
     +:+ (if Z.testbit code 1 then "r"
          else if Z.testbit code 3 then "l" else ""))%string.
Proof.
  intros H.
  rewrite dpad_value_bits in H. apply Ok_inj in H. subst position.
  destruct (Z.testbit code 0), (Z.testbit code 1), (Z.testbit code 2),
    (Z.testbit code 3); reflexivity.
Qed.

(** With the base bound to [DPadState]: [process_event] first stores the
    code through the inherited method, then adds to the set the inherited
    [value()] of that code with the whitespace of both ends removed: the
    letters of the position and no space.  Trimming the trailing end alone
    gives the same string on every code but those with the right or the
    left bit set and neither the up nor the down bit. *)
Theorem dpad_switches_process (self : DPadSwitchesState.t)
    (event : DPadEvent) :
  exists position,
    returned DPadState.value
      (after (DPadState.process_event event) (DPadSwitchesState.base self))
    = Ok position
    /\ DPadSwitchesState.process_event event self
       = (Ok tt,
          DPadSwitchesState.mk
            (after (DPadState.process_event event)
               (DPadSwitchesState.base self))
            ({[ strip position ]} ∪ DPadSwitchesState.__value self))
    /\ strip position
       = ((if Z.testbit (state event) 0 then "u"
           else if Z.testbit (state event) 2 then "d" else "")
          +:+ (if Z.testbit (state event) 1 then "r"
               else if Z.testbit (state event) 3 then "l" else ""))%string
    /\ String.eqb (strip position) (rstrip position)
       = Z.testbit (state event) 0 || Z.testbit (state event) 2
         || negb (Z.testbit (state event) 1 || Z.testbit (state event) 3).
Proof.
  destruct (returned DPadState.value (DPadState.mk (state event)))
    as [position|e] eqn:E; [|discriminate E].
  exists position. split; [exact E|]. split.
  - now apply dpad_switches_process_run.
  - split; [now apply dpad_strip_letters|].
    rewrite dpad_value_bits in E. apply Ok_inj in E. subst position.
    destruct (Z.testbit (state event) 0), (Z.testbit (state event) 1),
      (Z.testbit (state event) 2), (Z.testbit (state event) 3);
      reflexivity.
Qed.

(** With the base bound to [DPadState], on the right-only code 0b0010:
    the position is [" r"], trimming its trailing end leaves [" r"], and
    the set receives ["r"]. *)
Lemma dpad_switches_right_only :
  let self :=
    after (DPadSwitchesState.process_event (mkEvent 0 2))
      DPadSwitchesState.__init__ in
  returned DPadState.value (DPadSwitchesState.base self) = Ok " r"
  /\ rstrip " r" = " r"
  /\ DPadSwitchesState.__value self = {[ "r" ]}
  /\ DPadSwitchesState.__value self
     <> {[ rstrip " r" ]} ∪ DPadSwitchesState.__value DPadSwitchesState.__init__.
Proof.
  cbv zeta.
  assert (Hset :
    DPadSwitchesState.__value
      (after (DPadSwitchesState.process_event (mkEvent 0 2))
         DPadSwitchesState.__init__) = {[ "r" ]}).
  { unfold after.
    rewrite (dpad_switches_process_run DPadSwitchesState.__init__
               (mkEvent 0 2) " r" eq_refl).
    cbn. set_solver. }
  split; [reflexivity|]. split; [reflexivity|]. split; [exact Hset|].
  rewrite Hset. intros H.
  assert (Hin : "r" ∈ ({[ " r" ]} ∪ ∅ : gset string)).
  { change (" r" : string) with (rstrip " r").
    change (∅ : gset string)
      with (DPadSwitchesState.__value DPadSwitchesState.__init__).
    rewrite <- H. set_solver. }
  set_unfold. destruct Hin as [Hin|[]]. discriminate Hin.
Qed.

(** With the base bound to [DPadState]: from a new instance, after the
    codes up (0b0001), up-right (0b0011) and right (0b0010), [value()]
    returns ["u"], ["ur"] and ["r"] in some order; after [clear()] it
    returns the empty tuple; and [clear()] leaves the inherited last code
    as it was. *)
Theorem dpad_switches_sweep (tm1 tm2 tm3 : Z) :
  let swept :=
    after (process_events DPadSwitchesState.cls
             [mkEvent tm1 1; mkEvent tm2 3; mkEvent tm3 2])
      DPadSwitchesState.__init__ in
  (exists members,
     returned DPadSwitchesState.value swept = Ok members
     /\ members ≡ₚ ["u"; "ur"; "r"])
  /\ returned DPadSwitchesState.value
       (after DPadSwitchesState.clear swept) = Ok []
  /\ (forall self : DPadSwitchesState.t,
        DPadSwitchesState.base (after DPadSwitchesState.clear self)
        = DPadSwitchesState.base self).
Proof.
  cbv zeta. split; [|split].
  - exists ["ur"; "u"; "r"]. split.
    + vm_compute. reflexivity.
    + apply perm_swap.
  - vm_compute. reflexivity.
  - reflexivity.
Qed.

(* ===================================================================== *)
(** ** All state classes *)
(* ===================================================================== *)

(** If [value()] does not mutate, and [clear()] returns and does nothing
    where [value()] raises, then the instance called returns what
    [value()] returns and leaves what [clear()] leaves. *)
Lemma call_composes (C : Class) (self : Self C) :
  after (value C) self = self ->
  (forall e, returned (value C) self = Raise e -> after (clear C) self = self) ->
  returned (clear C) self = Ok tt ->
  returned (AbstractState.__call__ C) self = returned (value C) self
  /\ after (AbstractState.__call__ C) self = after (clear C) self.
Proof.
  unfold after, returned, AbstractState.__call__, bind, ret.
  destruct (value C self) as [[v|e] self'] eqn:E; cbn [fst snd].
  - intros -> _ Hc. destruct (clear C self) as [[[]|e] self''];
      [split; reflexivity | discriminate Hc].
  - intros -> Hraise _. split; [reflexivity|].
    symmetry. now apply (Hraise e).
Qed.

(** C7. In every state class and on every instance, [value()] leaves the
    instance as it was, and the instance called returns what [value()]
    returns and leaves the instance as [clear()] leaves it. *)
Theorem value_reads_call_clears (v : variant) (self : Self (class_of v)) :
  after (value (class_of v)) self = self
  /\ returned (AbstractState.__call__ (class_of v)) self
     = returned (value (class_of v)) self
  /\ after (AbstractState.__call__ (class_of v)) self
     = after (clear (class_of v)) self.
Proof.
  assert (Hpure : after (value (class_of v)) self = self).
  { destruct v; try reflexivity. apply decimal_axis_value_pure. }
  split; [exact Hpure|].
  apply call_composes; [exact Hpure| |].
  - destruct v; intros e H; try reflexivity; discriminate H.
  - destruct v; reflexivity.
Qed.

(** [process_event] reads the [state] of its event and nothing else. *)
Lemma process_event_state (v : variant)
    (e1 e2 : Event (Signal (class_of v))) :
  state e1 = state e2 ->
  process_event (class_of v) e1 = process_event (class_of v) e2.
Proof.
  intros H. destruct v; cbn [process_event class_of] in *;
    cbn [CurrentButtonState.cls ToggleButtonState.cls ClickedButtonState.cls
         DecimalAxisState.cls DecimalTriggerState.cls PulledTriggerState.cls
         DPadState.cls DPadSwitchesState.cls process_event Signal] in *.
  - unfold CurrentButtonState.process_event. now rewrite H.
  - unfold ToggleButtonState.process_event. now rewrite H.
  - unfold ClickedButtonState.process_event. now rewrite H.
  - unfold DecimalAxisState.process_event. now rewrite H.
  - unfold DecimalTriggerState.process_event. now rewrite H.
  - unfold PulledTriggerState.process_event,
      DecimalTriggerState.process_event. now rewrite H.
  - unfold DPadState.process_event. now rewrite H.
  - unfold DPadSwitchesState.process_event, DPadState.process_event.
    now rewrite H.
Qed.

Lemma perform_same_but_time (v : variant) (c1 c2 : call (class_of v)) :
  same_but_time c1 c2 -> perform (class_of v) c1 = perform (class_of v) c2.
Proof.
  intros H. destruct H as [e1 e2 He| | | |]; try reflexivity.
  cbn [perform]. now rewrite (process_event_state v e1 e2 He).
Qed.

(** C9. In every state class, two runs of calls from the same instance
    that differ only in the [time] of the events delivered give the same
    outcome call by call (what is returned or raised by [value()] and by the
    instance called included) and leave the same instance. *)
Theorem timestamps_ignored (v : variant)
    (calls1 calls2 : list (call (class_of v))) :
  Forall2 same_but_time calls1 calls2 ->
  forall self : Self (class_of v),
  run (class_of v) calls1 self = run (class_of v) calls2 self.
Proof.
  induction 1 as [|c1 c2 calls1 calls2 Hc _ IH]; intros self.
  - reflexivity.
  - cbn [run]. rewrite (perform_same_but_time v c1 c2 Hc).
    destruct (perform (class_of v) c2 self) as [r self1].
    now rewrite IH.
Qed.

Lemma timestamps_ignored_witness :
  run (class_of DecimalAxis)
    [Zero 512; @ProcessEvent (class_of DecimalAxis) (mkEvent 100 20000);
     GetValue; @ProcessEvent (class_of DecimalAxis) (mkEvent 250 (-3)); Poll]
    DecimalAxisState.__init__
  = run (class_of DecimalAxis)
      [Zero 512; @ProcessEvent (class_of DecimalAxis) (mkEvent 9 20000);
       GetValue; @ProcessEvent (class_of DecimalAxis) (mkEvent 2 (-3)); Poll]
      DecimalAxisState.__init__.
Proof.
  apply (timestamps_ignored DecimalAxis).
  repeat constructor.
Defined.

(* ===================================================================== *)
(** ** Loading the module *)
(* ===================================================================== *)

Lemma not_bound (name : string) (names : list string) :
  bool_decide (name ∈ names) = false -> name ∉ names.
Proof. apply bool_decide_eq_false. Qed.

(** C2. [DPadSwitchesState], and with it the [process_event] that would
    delegate to the position class, is never created.  Every statement
    above line 194 runs; there the class statement looks up its base
    [HatState], which is bound neither in the module nor built in, while
    [DPadState], the class that has the [process_event] and [value] the
    body calls through [super()], is bound under its own name.  The
    unbound name is the one obstacle: with [HatState] bound, the whole top
    level runs. *)
Theorem dpad_switches_base_unbound :
  exec (take 16 xbox) []
  = (None,
     ["DPadState"; "PulledTriggerState"; "DecimalTriggerState";
      "DecimalAxisState"; "ClickedButtonState"; "ToggleButtonState";
      "CurrentButtonState"; "AbstractState"; "DeviceEvent"; "DPadEvent";
      "AxisEvent"; "ButtonEvent"; "sdl2"; "sdl2"; "namedtuple"; "isclose"])
  /\ (xbox !! 16%nat)
     = Some (mkStatement 194 ["HatState"] "DPadSwitchesState")
  /\ first_unbound (snd (exec (take 16 xbox) [])) ["HatState"]
     = Some "HatState"
  /\ first_unbound (snd (exec (take 16 xbox) [])) ["DPadState"] = None
  /\ fst (exec xbox ["HatState"]) = None.
Proof. repeat split; vm_compute; reflexivity. Qed.

(** C3. No [DPadSwitchesState] can be made: run from nothing bound, the
    top level stops at line 194 with [NameError: name 'HatState' is not
    defined], and neither [DPadSwitchesState] nor [Controller], whose
    [__init__] would make one, is bound when it stops. *)
Theorem dpad_switches_never_created :
  fst (exec xbox []) = Some (194%nat, name_not_defined "HatState")
  /\ ("DPadSwitchesState" ∉ snd (exec xbox []))
  /\ ("Controller" ∉ snd (exec xbox [])).
Proof.
  split; [vm_compute; reflexivity|].
  split; apply not_bound; vm_compute; reflexivity.
Qed.

(* ===================================================================== *)
(** ** Further properties of the state classes *)
(* ===================================================================== *)

Lemma run_app (C : Class) (calls1 calls2 : list (call C)) :
  forall self : Self C,
  snd (run C (calls1 ++ calls2) self)
  = snd (run C calls2 (snd (run C calls1 self))).
Proof.
  induction calls1 as [|c calls1 IH]; intros self.
  - reflexivity.
  - cbn [app run]. destruct (perform C c self) as [r self1].
    specialize (IH self1).
    destruct (run C (calls1 ++ calls2) self1) as [rs self2].
    destruct (run C calls1 self1) as [rs1 self3]. exact IH.
Qed.

Lemma run_cons (C : Class) (c : call C) (calls : list (call C))
    (self : Self C) :
  snd (run C (c :: calls) self)
  = snd (run C calls (after (perform C c) self)).
Proof.
  cbn [run]. unfold after. destruct (perform C c self) as [r self1].
  cbn [snd]. now destruct (run C calls self1).
Qed.

(** One call on a [CurrentButtonState]: only an event changes it. *)
Lemma current_button_perform (c : call CurrentButtonState.cls)
    (self : CurrentButtonState.t) :
  CurrentButtonState._value (after (perform CurrentButtonState.cls c) self)
  = match c with
    | ProcessEvent event => state event
    | _ => CurrentButtonState._value self
    end.
Proof. destruct c; reflexivity. Qed.

(** X1. The level follows the last event delivered, whatever [clear()],
    [zero()] and polls come between or after. *)
Theorem current_button_last_event (calls : list (call CurrentButtonState.cls)) :
  forall self : CurrentButtonState.t,
  returned CurrentButtonState.value
    (snd (run CurrentButtonState.cls calls self))
  = Ok (default (CurrentButtonState._value self) (last_signal calls)).
Proof.
  induction calls as [|c calls IH]; intros self.
  - reflexivity.
  - rewrite run_cons, IH. cbn [last_signal].
    destruct (last_signal calls) as [s|]; [reflexivity|].
    cbn [default]. rewrite current_button_perform. now destruct c.
Qed.

(** One call on a [ClickedButtonState]. *)
Lemma clicked_button_perform (c : call ClickedButtonState.cls)
    (self : ClickedButtonState.t) :
  ClickedButtonState._value (after (perform ClickedButtonState.cls c) self)
  = if keeps c then ClickedButtonState._value self || presses c else false.
Proof.
  destruct self as [v]. destruct c; cbn; try reflexivity;
    now rewrite orb_false_r.
Qed.

Lemma clicked_button_kept (calls : list (call ClickedButtonState.cls)) :
  forall self : ClickedButtonState.t,
  forallb keeps calls = true ->
  ClickedButtonState._value (snd (run ClickedButtonState.cls calls self))
  = ClickedButtonState._value self || existsb presses calls.
Proof.
  induction calls as [|c calls IH]; intros self Hk.
  - cbn. now rewrite orb_false_r.
  - cbn [forallb] in Hk. apply andb_true_iff in Hk as [Hc Hk].
    rewrite run_cons, (IH _ Hk), clicked_button_perform, Hc.
    cbn [existsb]. now rewrite orb_assoc.
Qed.

(** X2. [ClickedButtonState] reads true exactly when a pressed event came
    since the last [clear()] or poll: with no clearing call in the run, it
    is the old latch or-ed with "some event pressed"; after a clearing call
    only the events that follow it count, releases never undoing a press. *)
Theorem clicked_button_since_clear :
  (forall (calls : list (call ClickedButtonState.cls))
      (self : ClickedButtonState.t),
      forallb keeps calls = true ->
      returned ClickedButtonState.value
        (snd (run ClickedButtonState.cls calls self))
      = Ok (ClickedButtonState._value self || existsb presses calls))
  /\ (forall (before after_ : list (call ClickedButtonState.cls))
        (c : call ClickedButtonState.cls) (self : ClickedButtonState.t),
        keeps c = false ->
        forallb keeps after_ = true ->
        returned ClickedButtonState.value
          (snd (run ClickedButtonState.cls (before ++ c :: after_) self))
        = Ok (existsb presses after_)).
Proof.
  split.
  - intros calls self Hk. unfold returned, ClickedButtonState.value, getattr.
    cbn [fst]. now rewrite clicked_button_kept.
  - intros before after_ c self Hc Hk.
    unfold returned, ClickedButtonState.value, getattr. cbn [fst].
    rewrite run_app, run_cons, (clicked_button_kept _ _ Hk),
      clicked_button_perform, Hc. reflexivity.
Qed.

Lemma clicked_button_since_clear_witness :
  returned ClickedButtonState.value
    (snd (run ClickedButtonState.cls
            ([@ProcessEvent ClickedButtonState.cls (mkEvent 1 true)]
             ++ Poll
             :: [@ProcessEvent ClickedButtonState.cls (mkEvent 2 true);
                 @ProcessEvent ClickedButtonState.cls (mkEvent 3 false);
                 GetValue])
            ClickedButtonState.__init__))
  = Ok true
  /\ returned ClickedButtonState.value
       (snd (run ClickedButtonState.cls
               ([@ProcessEvent ClickedButtonState.cls (mkEvent 1 true)]
                ++ Clear
                :: [@ProcessEvent ClickedButtonState.cls (mkEvent 3 false)])
               ClickedButtonState.__init__))
     = Ok false.
Proof.
  destruct clicked_button_since_clear as [_ H].
  split; apply H; reflexivity.
Defined.

(** X3. Calling a sticky instance consumes what it holds: right after, the
    toggle, the clicked latch and the pulled latch read false.  Calling a
    [CurrentButtonState], a [DecimalAxisState], a [DecimalTriggerState] or
    a [DPadState] leaves the instance as it was. *)
Theorem poll_consumes :
  (forall self : ToggleButtonState.t,
     returned ToggleButtonState.value
       (after (AbstractState.__call__ ToggleButtonState.cls) self) = Ok false)
  /\ (forall self : ClickedButtonState.t,
        returned ClickedButtonState.value
          (after (AbstractState.__call__ ClickedButtonState.cls) self)
        = Ok false)
  /\ (forall self : PulledTriggerState.t,
        returned PulledTriggerState.value
          (after (AbstractState.__call__ PulledTriggerState.cls) self)
        = Ok false)
  /\ (forall (v : variant) (self : Self (class_of v)),
        v = CurrentButton \/ v = DecimalAxis \/ v = DecimalTrigger \/ v = DPad ->
        after (AbstractState.__call__ (class_of v)) self = self).
Proof.
  split; [reflexivity|]. split; [reflexivity|]. split; [reflexivity|].
  intros v self Hv.
  assert (Hpure : after (value (class_of v)) self = self).
  { destruct v; try reflexivity. apply decimal_axis_value_pure. }
  destruct (call_composes (class_of v) self Hpure) as [_ H].
  - destruct v; intros e He; try reflexivity; discriminate He.
  - destruct v; reflexivity.
  - rewrite H. destruct Hv as [->|[->|[->| ->]]]; reflexivity.
Qed.

Lemma poll_consumes_witness :
  after (AbstractState.__call__ (class_of DecimalAxis))
    (DecimalAxisState.mk 32767 5)
  = DecimalAxisState.mk 32767 5.
Proof.
  destruct poll_consumes as (_ & _ & _ & H).
  apply (H DecimalAxis). right. left. reflexivity.
Defined.

(** One call on a [DecimalAxisState]: an event rewrites the sample, [zero]
    rewrites the reference, nothing else writes anything. *)
Lemma decimal_axis_perform (c : call DecimalAxisState.cls)
    (self : DecimalAxisState.t) :
  after (perform DecimalAxisState.cls c) self
  = match c with
    | ProcessEvent event =>
        DecimalAxisState.mk (DecimalAxisState.zero_value self) (state event)
    | Zero current =>
        DecimalAxisState.mk current (DecimalAxisState.__value self)
    | _ => self
    end.
Proof.
  destruct c as [event| | |current|]; try reflexivity.
  - pose proof (decimal_axis_value_pure self) as H.
    unfold after, perform, bind in *. cbn [value DecimalAxisState.cls].
    destruct (DecimalAxisState.value self) as [[x|e] self']; exact H.
  - pose proof (decimal_axis_value_pure self) as H.
    unfold after, perform, AbstractState.__call__, bind in *.
    cbn [value clear DecimalAxisState.cls].
    destruct (DecimalAxisState.value self) as [[x|e] self']; exact H.
Qed.

(** X4. Sample and zero reference of a [DecimalAxisState] are independent:
    after any run of calls the stored sample is that of the last event and
    the zero reference is that of the last [zero], each as it was before the
    run if the run has none.  So calibrating never rewrites the sample,
    sampling never resets the calibration, and [value()], [clear()] and
    polls, raising or not, write neither. *)
Theorem decimal_axis_channels (calls : list (call DecimalAxisState.cls)) :
  forall self : DecimalAxisState.t,
  snd (run DecimalAxisState.cls calls self)
  = DecimalAxisState.mk
      (default (DecimalAxisState.zero_value self) (last_zero calls))
      (default (DecimalAxisState.__value self) (last_signal calls)).
Proof.
  induction calls as [|c calls IH]; intros self.
  - now destruct self.
  - rewrite run_cons, IH, decimal_axis_perform. cbn [last_zero last_signal].
    destruct (last_zero calls) as [z|], (last_signal calls) as [s|];
      destruct c; try reflexivity; now destruct self.
Qed.

(** The threshold of the latch in samples, checked on the whole range. *)
Lemma pull_threshold_checked :
  forallb_from pull_threshold_ok DecimalTriggerState.VAR_MIN (Z.to_nat 65536)
  = true.
Proof. vm_compute. reflexivity. Qed.

Lemma pull_threshold_sample (raw : Z) :
  DecimalTriggerState.VAR_MIN <= raw <= DecimalTriggerState.VAR_MAX ->
  (0.9 <? float_of_int (raw - DecimalTriggerState.VAR_MIN)
          / float_of_int 65535)%float
  = (pull_threshold <=? raw).
Proof.
  intros Hraw.
  pose proof (forallb_from_spec _ _ _ pull_threshold_checked raw) as H.
  unfold pull_threshold_ok, returned in H.
  rewrite decimal_trigger_value_run in H.
  cbn [fst DecimalTriggerState.__value] in H.
  apply eqb_prop, H. rewrite Z2Nat.id by lia.
  unfold DecimalTriggerState.VAR_MIN, DecimalTriggerState.VAR_MAX in *. lia.
Qed.

(** X5. On samples of the hardware range, [PulledTriggerState] latches exactly
    on a sample of at least 26214 (the least whose normalized value exceeds
    0.9): after a run of events the latch is what it was, or-ed with "some
    sample reached 26214". *)
Theorem pulled_trigger_raw_threshold (events : list AxisEvent) :
  forall self : PulledTriggerState.t,
  Forall (fun event =>
            DecimalTriggerState.VAR_MIN <= state event
              <= DecimalTriggerState.VAR_MAX) events ->
  returned (process_events PulledTriggerState.cls events) self = Ok tt
  /\ returned PulledTriggerState.value
       (after (process_events PulledTriggerState.cls events) self)
     = Ok (PulledTriggerState._value self
           || existsb (fun event => pull_threshold <=? state event) events).
Proof.
  induction events as [|event events IH]; intros self Hr.
  - split; [reflexivity|]. cbn. now rewrite orb_false_r.
  - apply Forall_cons in Hr as [Hev Hr].
    unfold returned, after in *. cbn [process_events]. unfold bind.
    cbn [process_event PulledTriggerState.cls].
    rewrite pulled_trigger_process_run.
    rewrite (pull_threshold_sample _ Hev).
    match goal with |- context [process_events _ events ?s] =>
      destruct (IH s Hr) as [IH1 IH2] end.
    split; [exact IH1|]. rewrite IH2.
    cbn [PulledTriggerState._value existsb]. now rewrite orb_assoc.
Qed.

Lemma pulled_trigger_raw_threshold_witness :
  returned PulledTriggerState.value
    (after (process_events PulledTriggerState.cls
              [mkEvent 1 26213; mkEvent 2 (-32768); mkEvent 3 26214;
               mkEvent 4 0])
       PulledTriggerState.__init__)
  = Ok true
  /\ returned PulledTriggerState.value
       (after (process_events PulledTriggerState.cls
                 [mkEvent 1 26213; mkEvent 2 (-32768)])
          PulledTriggerState.__init__)
     = Ok false.
Proof.
  split.
  - apply (pulled_trigger_raw_threshold
             [mkEvent 1 26213; mkEvent 2 (-32768); mkEvent 3 26214;
              mkEvent 4 0] PulledTriggerState.__init__).
    repeat constructor; cbn; unfold DecimalTriggerState.VAR_MIN,
      DecimalTriggerState.VAR_MAX; lia.
  - apply (pulled_trigger_raw_threshold
             [mkEvent 1 26213; mkEvent 2 (-32768)]
             PulledTriggerState.__init__).
    repeat constructor; cbn; unfold DecimalTriggerState.VAR_MIN,
      DecimalTriggerState.VAR_MAX; lia.
Defined.

Lemma trigger_line_step (a b : Z) :
  a < b -> (trigger_line a + (1 # 65535) <= trigger_line b)%Q.
Proof.
  intros H. unfold trigger_line.
  change (DecimalTriggerState.VAR_MAX - DecimalTriggerState.VAR_MIN)
    with 65535.
  unfold Qle, Qdiv, Qmult, Qplus, Qinv, inject_Z,
    DecimalTriggerState.VAR_MIN.
  cbn. lia.
Qed.

(** X6. On the hardware range the trigger reading grows strictly with the
    sample and stays between 0 and 1: for samples [a < b] the doubles
    returned denote rationals [0 <= qa < qb <= 1]. *)
Theorem decimal_trigger_monotone (self_a self_b : DecimalTriggerState.t) :
  DecimalTriggerState.VAR_MIN <= DecimalTriggerState.__value self_a ->
  DecimalTriggerState.__value self_a < DecimalTriggerState.__value self_b ->
  DecimalTriggerState.__value self_b <= DecimalTriggerState.VAR_MAX ->
  exists qa qb,
    trigger_value_Q self_a = Some qa
    /\ trigger_value_Q self_b = Some qb
    /\ (0 <= qa)%Q /\ (qa < qb)%Q /\ (qb <= 1)%Q.
Proof.
  intros Hlo Hlt Hhi.
  destruct (decimal_trigger_on_line self_a ltac:(lia)) as (qa & Ea & Ba).
  destruct (decimal_trigger_on_line self_b ltac:(lia)) as (qb & Eb & Bb).
  exists qa, qb. split; [exact Ea|]. split; [exact Eb|].
  pose proof (trigger_line_step _ _ Hlt) as Hstep.
  apply Qabs_Qle_condition in Ba, Bb.
  assert (Hab : (qa < qb)%Q).
  { change half_ulp with (1 # 18014398509481984)%Q in *. lra. }
  split; [|split; [exact Hab|]].
  - (* the least sample gives exactly 0 *)
    destruct (Z.eq_dec (DecimalTriggerState.__value self_a)
                DecimalTriggerState.VAR_MIN) as [Hmin|Hne].
    + rewrite trigger_value_Q_raw, Hmin in Ea. vm_compute in Ea.
      injection Ea as <-. apply Qle_refl.
    + pose proof (trigger_line_step DecimalTriggerState.VAR_MIN
                    (DecimalTriggerState.__value self_a) ltac:(lia)) as H0.
      assert (Hz : (trigger_line DecimalTriggerState.VAR_MIN == 0)%Q)
        by reflexivity.
      change half_ulp with (1 # 18014398509481984)%Q in *. lra.
  - (* the greatest sample gives exactly 1 *)
    destruct (Z.eq_dec (DecimalTriggerState.__value self_b)
                DecimalTriggerState.VAR_MAX) as [Hmax|Hne].
    + rewrite trigger_value_Q_raw, Hmax in Eb. vm_compute in Eb.
      injection Eb as <-. discriminate.
    + pose proof (trigger_line_step (DecimalTriggerState.__value self_b)
                    DecimalTriggerState.VAR_MAX ltac:(lia)) as H1.
      assert (Hone : (trigger_line DecimalTriggerState.VAR_MAX == 1)%Q)
        by reflexivity.
      change half_ulp with (1 # 18014398509481984)%Q in *. lra.
Qed.

Lemma decimal_trigger_monotone_witness :
  exists qa qb,
    trigger_value_Q (DecimalTriggerState.mk 0 (-32768)) = Some qa
    /\ trigger_value_Q (DecimalTriggerState.mk 0 (-32767)) = Some qb
    /\ (0 <= qa)%Q /\ (qa < qb)%Q /\ (qb <= 1)%Q.
Proof.
  apply (decimal_trigger_monotone (DecimalTriggerState.mk 0 (-32768))
           (DecimalTriggerState.mk 0 (-32767)));
    unfold DecimalTriggerState.VAR_MIN, DecimalTriggerState.VAR_MAX; cbn; lia.
Defined.

(** A new axis, sample by sample over the hardware range. *)
Lemma fresh_axis_checked :
  forallb_from fresh_axis_ok DecimalAxisState.VAR_MIN (Z.to_nat 65536) = true.
Proof. vm_compute. reflexivity. Qed.

(** X7. A new [DecimalAxisState] (zero reference 0), on every sample of the
    hardware range: the samples from -1310 to 1310 read as the integer [0];
    a larger sample reads as a double above 0.04 and at most 1; a smaller
    one as a double below -0.04 and at least -1. *)
Theorem fresh_axis_reading (raw tm : Z) :
  DecimalAxisState.VAR_MIN <= raw <= DecimalAxisState.VAR_MAX ->
  let reading :=
    returned DecimalAxisState.value
      (after (DecimalAxisState.process_event (mkEvent tm raw))
         DecimalAxisState.__init__) in
  (- rest_band <= raw <= rest_band -> reading = Ok (PyInt 0))
  /\ (rest_band < raw ->
      exists x q, reading = Ok (PyFloat x) /\ Q_of_float x = Some q
        /\ (1 # 25 < q)%Q /\ (q <= 1)%Q)
  /\ (raw < - rest_band ->
      exists x q, reading = Ok (PyFloat x) /\ Q_of_float x = Some q
        /\ (-1 <= q)%Q /\ (q < - (1 # 25))%Q).
Proof.
  intros Hraw reading. subst reading.
  change (after (DecimalAxisState.process_event (mkEvent tm raw))
            DecimalAxisState.__init__)
    with (DecimalAxisState.mk 0 raw).
  pose proof (forallb_from_spec _ _ _ fresh_axis_checked raw) as H.
  unfold fresh_axis_ok in H.
  assert (Hin : DecimalAxisState.VAR_MIN <= raw
                < DecimalAxisState.VAR_MIN + Z.of_nat (Z.to_nat 65536)).
  { rewrite Z2Nat.id by lia.
    unfold DecimalAxisState.VAR_MIN, DecimalAxisState.VAR_MAX in *. lia. }
  specialize (H Hin). clear Hin. unfold rest_band in *.
  destruct (returned DecimalAxisState.value (DecimalAxisState.mk 0 raw))
    as [[n|x]|e]; [| |discriminate H].
  - apply andb_true_iff in H as [H Hhi]. apply andb_true_iff in H as [Hn Hlo].
    apply Z.eqb_eq in Hn. apply Z.leb_le in Hlo, Hhi. subst n.
    split; [reflexivity|]. split; intros Hout; lia.
  - destruct (Q_of_float x) as [q|] eqn:Eq; [|discriminate H].
    apply orb_true_iff in H as [H|H];
      apply andb_true_iff in H as [H H3];
      apply andb_true_iff in H as [H1 H2].
    + apply Z.ltb_lt in H1. apply negb_true_iff in H2.
      apply Qle_bool_iff in H3.
      assert (H2' : (1 # 25 < q)%Q).
      { apply Qnot_le_lt. intros Hle. apply Qle_bool_iff in Hle. congruence. }
      split; [intros; lia|]. split.
      * intros _. exists x, q. repeat split; assumption.
      * intros; lia.
    + apply Z.ltb_lt in H1. apply Qle_bool_iff in H2.
      apply negb_true_iff in H3.
      assert (H3' : (q < - (1 # 25))%Q).
      { apply Qnot_le_lt. intros Hle. apply Qle_bool_iff in Hle. congruence. }
      split; [intros; lia|]. split.
      * intros; lia.
      * intros _. exists x, q. repeat split; assumption.
Qed.

Lemma fresh_axis_reading_witness :
  returned DecimalAxisState.value
    (after (DecimalAxisState.process_event (mkEvent 3 (-1310)))
       DecimalAxisState.__init__) = Ok (PyInt 0)
  /\ exists x q,
       returned DecimalAxisState.value
         (after (DecimalAxisState.process_event (mkEvent 3 1311))
            DecimalAxisState.__init__) = Ok (PyFloat x)
       /\ Q_of_float x = Some q /\ (1 # 25 < q)%Q /\ (q <= 1)%Q.
Proof.
  split.
  - apply (fresh_axis_reading (-1310) 3);
      unfold DecimalAxisState.VAR_MIN, DecimalAxisState.VAR_MAX, rest_band;
      lia.
  - apply (fresh_axis_reading 1311 3);
      unfold DecimalAxisState.VAR_MIN, DecimalAxisState.VAR_MAX, rest_band;
      lia.
Defined.

(* --------------------------------------------------------------------- *)
(** *** The directional pad, further *)

Lemma land15_bits (code n : Z) :
  0 <= n ->
  Z.testbit (Z.land code 15) n = if n <? 4 then Z.testbit code n else false.
Proof.
  intros Hn. rewrite Z.land_spec. change 15 with (Z.ones 4).
  destruct (Z.ltb_spec n 4).
  - rewrite Z.ones_spec_low by lia. apply andb_true_r.
  - rewrite Z.ones_spec_high by lia. apply andb_false_r.
Qed.

(** The position string decides the four direction bits of a code that has
    no two opposite directions set. *)
Lemma dpad_value_decides (c1 c2 : Z) :
  hat_code c1 = true -> hat_code c2 = true ->
  returned DPadState.value (DPadState.mk c1)
  = returned DPadState.value (DPadState.mk c2) ->
  Z.testbit c1 0 = Z.testbit c2 0 /\ Z.testbit c1 1 = Z.testbit c2 1
  /\ Z.testbit c1 2 = Z.testbit c2 2 /\ Z.testbit c1 3 = Z.testbit c2 3.
Proof.
  unfold hat_code. rewrite !dpad_value_bits. intros H1 H2 H.
  apply Ok_inj in H. revert H1 H2 H.
  destruct (Z.testbit c1 0), (Z.testbit c1 1), (Z.testbit c1 2),
    (Z.testbit c1 3), (Z.testbit c2 0), (Z.testbit c2 1), (Z.testbit c2 2),
    (Z.testbit c2 3); cbn; intros H1 H2 H;
    try discriminate; repeat split.
Qed.

(** X8. [DPadState.value()] always has two characters and reads the four low
    bits of the code only; on hat codes (no two opposite directions at
    once) it tells the codes apart: equal strings mean equal low bits. *)
Theorem dpad_value_low_bits :
  (forall code position,
     returned DPadState.value (DPadState.mk code) = Ok position ->
     String.length position = 2%nat)
  /\ (forall code,
        returned DPadState.value (DPadState.mk code)
        = returned DPadState.value (DPadState.mk (Z.land code 15)))
  /\ (forall c1 c2,
        hat_code c1 = true -> hat_code c2 = true ->
        returned DPadState.value (DPadState.mk c1)
        = returned DPadState.value (DPadState.mk c2) ->
        Z.land c1 15 = Z.land c2 15).
Proof.
  split; [|split].
  - intros code position H. rewrite dpad_value_bits in H.
    apply Ok_inj in H. now subst position.
  - intros code. rewrite !dpad_value_bits, !land15_bits by lia. reflexivity.
  - intros c1 c2 H1 H2 H.
    destruct (dpad_value_decides c1 c2 H1 H2 H) as (B0 & B1 & B2 & B3).
    apply Z.bits_inj'. intros n Hn. rewrite !land15_bits by exact Hn.
    destruct (Z.ltb_spec n 4) as [Hlt|]; [|reflexivity].
    assert (Hcases : n = 0 \/ n = 1 \/ n = 2 \/ n = 3) by lia.
    destruct Hcases as [->|[->|[->| ->]]]; assumption.
Qed.

Lemma dpad_value_low_bits_witness :
  String.length "ur" = 2%nat
  /\ Z.land 19 15 = Z.land 3 15.
Proof.
  destruct dpad_value_low_bits as (Hlen & _ & Hinj).
  split.
  - apply (Hlen 3). reflexivity.
  - apply Hinj; reflexivity.
Defined.

(* --------------------------------------------------------------------- *)
(** *** What can raise *)

(** X11. With samples of the hardware range where a call divides by the
    constant range (the sample a [DecimalTriggerState] holds, the sample an
    event brings to a [PulledTriggerState]), the one call that can raise is
    reading a calibrated axis, by [value()] or by the instance called, and
    it leaves the instance as it was.  No [process_event], [clear()] or
    [zero()] of any class raises, nor does reading any other class. *)
Theorem only_axis_reading_raises (v : variant) (c : call (class_of v))
    (self : Self (class_of v)) (e : exn) :
  samples_in_range v c self ->
  fst (perform (class_of v) c self) = Raise e ->
  v = DecimalAxis
  /\ (c = GetValue \/ c = Poll)
  /\ after (perform (class_of v) c) self = self.
Proof.
  intros _ H.
  destruct v;
    try (destruct c; cbn in H; discriminate H).
  split; [reflexivity|]. split.
  - destruct c; try (cbn in H; discriminate H); auto.
  - change (after (perform DecimalAxisState.cls c) self = self).
    rewrite (decimal_axis_perform c self).
    destruct c; try (cbn in H; discriminate H); reflexivity.
Qed.

Lemma only_axis_reading_raises_witness :
  DecimalAxis = DecimalAxis
  /\ (@GetValue (class_of DecimalAxis) = GetValue
      \/ @GetValue (class_of DecimalAxis) = Poll)
  /\ after (perform (class_of DecimalAxis) GetValue)
       (DecimalAxisState.mk 32767 9)
     = DecimalAxisState.mk 32767 9.
Proof.
  apply (only_axis_reading_raises DecimalAxis GetValue
           (DecimalAxisState.mk 32767 9) ZeroDivisionError).
  - exact I.
  - reflexivity.
Defined.
